(** * tailwind-playground: configuration modules and stylesheet entries

    The repository holds no algorithm of its own: every project directory
    pairs a [tailwind.config.js] module (one [export default] object
    literal) with a stylesheet entry and a README.  The development below
    embeds the JavaScript object-literal fragment those modules are written
    in, gives it an evaluation semantics over a store of global bindings,
    transcribes the configuration modules and the README examples, and
    states the shape properties of the resulting objects. *)

From Stdlib Require Import Ascii String.
From stdpp Require Import base strings list gmap pretty.

Open Scope string_scope.

(** ** JavaScript expressions of the configuration modules *)

Module Js.

(** A property name as written in an object literal: a bare identifier
    ([content:]), a quoted string (['dynamic':]) or a numeric literal
    ([50:]). *)
Inductive PropName : Type :=
| PIdent (s : string)
| PQuoted (s : string)
| PNum (n : N).

(** Expressions.  The first four constructors are the literal fragment the
    configuration modules use; [EVar], [EAssign] and [EDelete] are the
    expressions that read, create or update, and remove a global binding. *)
#[warnings="-register-all"] Inductive Expr : Type :=
| EStr (s : string)
| ERegex (src : string)
| EArr (items : list Expr)
| EObj (props : list (PropName * Expr))
| EVar (x : string)
| EAssign (x : string) (e : Expr)
| EDelete (x : string).

(** Values.  An object holds its own properties in the order they were
    created; a property key is always a string. *)
#[warnings="-register-all"] Inductive JsValue : Type :=
| VStr (s : string)
| VRegex (src : string)
| VBool (b : bool)
| VArr (items : list JsValue)
| VObj (props : list (string * JsValue)).

Inductive JsError : Type :=
| ReferenceError (x : string).

(** ToPropertyKey: a numeric literal key is turned into its decimal
    string. *)
Definition prop_key (p : PropName) : string :=
  match p with
  | PIdent s => s
  | PQuoted s => s
  | PNum n => pretty n
  end.

(** CreateDataProperty: a key already present keeps its position and takes
    the new value, a fresh key is appended. *)
Fixpoint define_property (k : string) (v : JsValue)
    (props : list (string * JsValue)) : list (string * JsValue) :=
  match props with
  | [] => [(k, v)]
  | (k', v') :: rest =>
      if decide (k = k') then (k, v) :: rest
      else (k', v') :: define_property k v rest
  end.

(** Evaluation threads the store of global bindings and stops at the first
    error. *)
Abbreviation Store := (gmap string JsValue).
Abbreviation Eval A := (Store -> Store * (JsError + A))%type.

Definition ret {A} (a : A) : Eval A := fun σ => (σ, inr a).

Definition throw {A} (err : JsError) : Eval A := fun σ => (σ, inl err).

Definition bind {A B} (m : Eval A) (f : A -> Eval B) : Eval B :=
  fun σ =>
    match m σ with
    | (σ', inl err) => (σ', inl err)
    | (σ', inr a) => f a σ'
    end.

Notation "'let*' x := m 'in' k" := (bind m (fun x => k))
  (at level 10, x name, m at level 100, k at level 200, only parsing).

Fixpoint eval (e : Expr) : Eval JsValue :=
  match e with
  | EStr s => ret (VStr s)
  | ERegex src => ret (VRegex src)
  | EArr items =>
      let* vs := (fix eval_items (es : list Expr) : Eval (list JsValue) :=
                    match es with
                    | [] => ret []
                    | e' :: es' =>
                        let* v := eval e' in
                        let* vs := eval_items es' in
                        ret (v :: vs)
                    end) items in
      ret (VArr vs)
  | EObj props =>
      let* obj := (fix eval_props (ps : list (PropName * Expr))
                       (acc : list (string * JsValue))
                     : Eval (list (string * JsValue)) :=
                     match ps with
                     | [] => ret acc
                     | (k, e') :: ps' =>
                         let* v := eval e' in
                         eval_props ps' (define_property (prop_key k) v acc)
                     end) props [] in
      ret (VObj obj)
  | EVar x =>
      fun σ =>
        match σ !! x with
        | Some v => (σ, inr v)
        | None => (σ, inl (ReferenceError x))
        end
  | EAssign x e' =>
      let* v := eval e' in
      fun σ => (<[x := v]> σ, inr v)
  | EDelete x =>
      fun σ => (delete x σ, inr (VBool true))
  end.

(** The literal fragment: strings, regular expressions, and arrays and
    objects of literals. *)
Fixpoint is_literal (e : Expr) : bool :=
  match e with
  | EStr _ | ERegex _ => true
  | EArr items => forallb is_literal items
  | EObj props => forallb (fun p => is_literal (snd p)) props
  | EVar _ | EAssign _ _ | EDelete _ => false
  end.

(** The value a literal denotes, read off the expression alone. *)
Fixpoint literal_value (e : Expr) : JsValue :=
  match e with
  | EStr s => VStr s
  | ERegex src => VRegex src
  | EArr items => VArr (map literal_value items)
  | EObj props =>
      VObj (fold_left
              (fun acc p => define_property (prop_key (fst p)) (literal_value (snd p)) acc)
              props [])
  | EVar _ | EAssign _ _ | EDelete _ => VBool false
  end.

(** A module of the repository: its single [export default] expression. *)
Record Module : Type := { default_export : Expr }.

Definition run_module (m : Module) : Eval JsValue := eval (default_export m).

(** The value of an expression in a fresh realm, where nothing is bound. *)
Definition evaluate (e : Expr) : option JsValue :=
  match eval e ∅ with
  | (_, inr v) => Some v
  | (_, inl _) => None
  end.

(** The object a build tool obtains by importing the module. *)
Definition exported (m : Module) : option JsValue :=
  evaluate (default_export m).

(** The object literals written in an expression, outermost first, each as
    the list of its property keys. *)
Fixpoint object_literals (e : Expr) : list (list string) :=
  match e with
  | EArr items => flat_map object_literals items
  | EObj props =>
      map (fun p => prop_key (fst p)) props
      :: flat_map (fun p => object_literals (snd p)) props
  | EAssign _ e' => object_literals e'
  | EStr _ | ERegex _ | EVar _ | EDelete _ => []
  end.

(** Property access on values. *)
Definition get (k : string) (v : JsValue) : option JsValue :=
  match v with
  | VObj props => snd <$> List.find (fun p => bool_decide (fst p = k)) props
  | _ => None
  end.

(** The own property keys, in creation order. *)
Definition own_keys (v : JsValue) : list string :=
  match v with
  | VObj props => map fst props
  | _ => []
  end.

Definition is_object (v : JsValue) : bool :=
  match v with VObj _ => true | _ => false end.

Definition is_string (v : JsValue) : bool :=
  match v with VStr _ => true | _ => false end.

Definition elements (v : JsValue) : list JsValue :=
  match v with VArr items => items | _ => [] end.

End Js.

Import Js.

(** ** The configuration modules *)

Module Repo.

(** functions-directives/tailwind.config.js *)
Definition functions_directives_config : Module :=
  {| default_export :=
       EObj [
         (PIdent "content", EArr [
            EStr "./index.html";
            EStr "./src/**/*.{js,ts,jsx,tsx}" ]);
         (PIdent "theme", EObj [
            (PIdent "extend", EObj [
               (PIdent "colors", EObj [
                  (PIdent "brand", EObj [
                     (PIdent "light", EStr "var(--color-brand-light)");
                     (PIdent "DEFAULT", EStr "var(--color-brand)");
                     (PIdent "dark", EStr "var(--color-brand-dark)") ]) ]);
               (PIdent "spacing", EObj [
                  (PQuoted "dynamic", EStr "var(--spacing-dynamic)") ]);
               (PIdent "fontSize", EObj [
                  (PQuoted "responsive", EStr "clamp(1rem, 2.5vw, 2.5rem)") ]) ]) ]);
         (PIdent "plugins", EArr []) ] |}.

(** detecting-classes/tailwind.config.js *)
Definition detecting_classes_config : Module :=
  {| default_export :=
       EObj [
         (PIdent "content", EArr [
            EStr "./index.html";
            EStr "./src/**/*.{js,ts,jsx,tsx}" ]);
         (PIdent "theme", EObj [
            (PIdent "extend", EObj []) ]);
         (PIdent "plugins", EArr []) ] |}.

(** The configuration files of the repository, by path. *)
Definition config_files : list (string * Module) :=
  [ ("functions-directives/tailwind.config.js", functions_directives_config);
    ("detecting-classes/tailwind.config.js", detecting_classes_config) ].

(** *** Configuration examples of the READMEs *)

(** Detecting Classes README, "Content Configuration". *)
Definition readme_content_example : Module :=
  {| default_export :=
       EObj [
         (PIdent "content", EArr [
            EStr "./index.html";
            EStr "./src/**/*.{js,jsx,ts,tsx}";
            EStr "./components/**/*.jsx" ]) ] |}.

(** Detecting Classes README, "Safelist (Force Inclusion)". *)
Definition readme_safelist_example : Module :=
  {| default_export :=
       EObj [
         (PIdent "safelist", EArr [
            EStr "bg-red-500";
            EStr "bg-blue-500";
            EStr "text-white";
            EObj [ (PIdent "pattern", ERegex "bg-(red|green|blue)-(50|100|500)") ] ]) ] |}.

(** Detecting Classes README, "Blocklist (Exclude Classes)". *)
Definition readme_blocklist_example : Module :=
  {| default_export :=
       EObj [
         (PIdent "blocklist", EArr [
            EStr "container";
            EStr "px-0.5" ]) ] |}.

(** Detecting Classes README, "Dynamic Classes (Need Safelist)": the
    [safelist:] property shown under "Your config". *)
Definition readme_dynamic_safelist_example : Module :=
  {| default_export :=
       EObj [
         (PIdent "safelist", EArr [
            EStr "bg-red-500";
            EStr "bg-green-500";
            EStr "bg-blue-500" ]) ] |}.

(** Colors README, "Customizing the Palette": the palette is placed
    directly under [theme]. *)
Definition readme_palette_example : Module :=
  {| default_export :=
       EObj [
         (PIdent "theme", EObj [
            (PIdent "colors", EObj [
               (PIdent "transparent", EStr "transparent");
               (PIdent "current", EStr "currentColor");
               (PIdent "white", EStr "#ffffff");
               (PIdent "black", EStr "#000000");
               (PIdent "brand", EObj [
                  (PNum 50, EStr "#f0f9ff");
                  (PNum 500, EStr "#0ea5e9");
                  (PNum 900, EStr "#0c3d66") ]) ]) ]) ] |}.

(** Dark Mode README, the two strategies. *)
Definition readme_dark_class_example : Module :=
  {| default_export := EObj [ (PIdent "darkMode", EStr "class") ] |}.

Definition readme_dark_media_example : Module :=
  {| default_export := EObj [ (PIdent "darkMode", EStr "media") ] |}.

(** Theme Variables README, "Configuration Structure": every category of
    the extension block is shown with its entries left out. *)
Definition readme_structure_example : Module :=
  {| default_export :=
       EObj [
         (PIdent "content", EArr [
            EStr "./index.html";
            EStr "./src/**/*.{js,ts,jsx,tsx}" ]);
         (PIdent "theme", EObj [
            (PIdent "extend", EObj [
               (PIdent "colors", EObj []);
               (PIdent "spacing", EObj []);
               (PIdent "fontSize", EObj []);
               (PIdent "borderRadius", EObj []);
               (PIdent "boxShadow", EObj []);
               (PIdent "animation", EObj []);
               (PIdent "keyframes", EObj []) ]) ]);
         (PIdent "plugins", EArr []) ] |}.

Definition readme_examples : list (string * Module) :=
  [ ("detecting-classes/README.md#content", readme_content_example);
    ("detecting-classes/README.md#safelist", readme_safelist_example);
    ("detecting-classes/README.md#blocklist", readme_blocklist_example);
    ("detecting-classes/README.md#dynamic-classes", readme_dynamic_safelist_example);
    ("colors/README.md#customizing-the-palette", readme_palette_example);
    ("dark-mode/README.md#class-based", readme_dark_class_example);
    ("dark-mode/README.md#media-based", readme_dark_media_example);
    ("theme-variables/README.md#configuration-structure", readme_structure_example) ].

(** Theme Variables README, best practice "Create Color Scales": the
    complete brand scale, every value written ['#...']. *)
Definition readme_brand_scale : Expr :=
  EObj [
    (PNum 50, EStr "#...");
    (PNum 100, EStr "#...");
    (PNum 200, EStr "#...");
    (PNum 300, EStr "#...");
    (PNum 400, EStr "#...");
    (PNum 500, EStr "#...");
    (PNum 600, EStr "#...");
    (PNum 700, EStr "#...");
    (PNum 800, EStr "#...");
    (PNum 900, EStr "#...") ].

(** Theme Variables README, the scales written out in full under "Custom
    Theme Values". *)
Definition readme_spacing : Expr :=
  EObj [
    (PQuoted "13", EStr "3.25rem");
    (PQuoted "15", EStr "3.75rem");
    (PQuoted "128", EStr "32rem");
    (PQuoted "144", EStr "36rem") ].

(** The font sizes shown there: three entries, the block then closes on
    the comment [// ...]. *)
Definition readme_font_size : Expr :=
  EObj [
    (PQuoted "xs", EArr [EStr "0.75rem"; EObj [(PIdent "lineHeight", EStr "1rem")]]);
    (PQuoted "sm", EArr [EStr "0.875rem"; EObj [(PIdent "lineHeight", EStr "1.25rem")]]);
    (PQuoted "base", EArr [EStr "1rem"; EObj [(PIdent "lineHeight", EStr "1.5rem")]]) ].

Definition readme_border_radius : Expr :=
  EObj [
    (PQuoted "none", EStr "0");
    (PQuoted "sm", EStr "0.25rem");
    (PQuoted "base", EStr "0.375rem");
    (PQuoted "md", EStr "0.5rem");
    (PQuoted "lg", EStr "0.75rem");
    (PQuoted "xl", EStr "1rem");
    (PQuoted "2xl", EStr "1.5rem");
    (PQuoted "3xl", EStr "2rem");
    (PQuoted "full", EStr "9999px") ].

Definition readme_box_shadow : Expr :=
  EObj [
    (PQuoted "none", EStr "none");
    (PQuoted "sm", EStr "0 1px 2px...");
    (PQuoted "base", EStr "0 1px 3px...");
    (PQuoted "md", EStr "0 4px 6px...");
    (PQuoted "lg", EStr "0 10px 15px...");
    (PQuoted "xl", EStr "0 20px 25px...");
    (PQuoted "premium", EStr "0 25px 50px -12px rgb(0 0 0 / 0.25)") ].

End Repo.

Import Repo.

(** ** Shapes of configuration objects *)

Module Shape.

(** The top-level keys the framework recognizes. *)
Definition recognized_keys : list string :=
  ["content"; "theme"; "darkMode"; "safelist"; "blocklist"; "plugins"].

(** Where a design category sits in [theme]: inside [extend], or directly
    under [theme]. *)
Inductive Placement : Type := Additive | Replacement.

Definition theme_categories (cfg : JsValue) : list (Placement * string * JsValue) :=
  match get "theme" cfg with
  | Some (VObj tprops) =>
      flat_map
        (fun p =>
           if decide (fst p = "extend")
           then match snd p with
                | VObj eprops => map (fun q => (Additive, fst q, snd q)) eprops
                | _ => []
                end
           else [(Replacement, fst p, snd p)])
        tprops
  | _ => []
  end.

Definition is_replacement (c : Placement * string * JsValue) : bool :=
  match c with
  | (Replacement, _, _) => true
  | (Additive, _, _) => false
  end.

(** A token scale is an object that maps keys to values; an object that
    only groups further objects (such as [colors], which groups the named
    color scales) is a namespace and is searched for the scales below it. *)
Definition has_entry (props : list (string * JsValue)) : bool :=
  match props with
  | [] => true
  | _ => existsb (fun p => negb (is_object (snd p))) props
  end.

Fixpoint token_scales (path : list string) (v : JsValue)
  : list (list string * list (string * JsValue)) :=
  match v with
  | VObj props =>
      ((if has_entry props then [(path, props)] else [])
       ++ (fix below (ps : list (string * JsValue))
             : list (list string * list (string * JsValue)) :=
             match ps with
             | [] => []
             | (k, v') :: ps' => (token_scales (path ++ [k]) v' ++ below ps')%list
             end) props)%list
  | _ => []
  end.

Definition config_scales (cfg : JsValue) : list (list string * list (string * JsValue)) :=
  flat_map (fun c => token_scales [snd (fst c)] (snd c)) (theme_categories cfg).

(** The color scales of a configuration: the object-valued entries of its
    [colors] category. *)
Definition color_scales (cfg : JsValue) : list (string * list (string * JsValue)) :=
  flat_map
    (fun c =>
       if decide (snd (fst c) = "colors")
       then match snd c with
            | VObj cprops =>
                flat_map
                  (fun p => match snd p with
                            | VObj sprops => [(fst p, sprops)]
                            | _ => []
                            end)
                  cprops
            | _ => []
            end
       else [])
    (theme_categories cfg).

(** The ten shades of a complete color scale. *)
Definition shades : list N := [50; 100; 200; 300; 400; 500; 600; 700; 800; 900]%N.

Definition shade_keys : list string := pretty <$> shades.

(** A complete color scale has the ten shades as its keys, and no other
    key. *)
Definition complete_color_scale (scale : list (string * JsValue)) : Prop :=
  map fst scale ≡ₚ shade_keys.

(** The values held by the token scales of a configuration. *)
Definition scale_values (cfg : JsValue) : list JsValue :=
  flat_map (fun s => map snd (snd s)) (config_scales cfg).

(** *** Value shapes *)

Definition is_digit (c : ascii) : bool :=
  let n := N_of_ascii c in (48 <=? n)%N && (n <=? 57)%N.

Definition is_hex_digit (c : ascii) : bool :=
  let n := N_of_ascii c in
  is_digit c || ((97 <=? n)%N && (n <=? 102)%N) || ((65 <=? n)%N && (n <=? 70)%N).

(** [#rgb], [#rgba], [#rrggbb] or [#rrggbbaa]. *)
Definition is_hex_color (s : string) : bool :=
  match s with
  | String "#"%char digits =>
      forallb is_hex_digit (list_ascii_of_string digits)
      && bool_decide (String.length digits ∈ [3; 4; 6; 8])
  | _ => false
  end.

Definition css_length_units : list string :=
  [""; "px"; "rem"; "em"; "%"; "vw"; "vh"; "vmin"; "vmax"; "ch"; "ex";
   "pt"; "pc"; "cm"; "mm"; "in"].

Fixpoint span_number (cs : list ascii) : list ascii * list ascii :=
  match cs with
  | c :: cs' =>
      if is_digit c || Ascii.eqb c "."%char
      then let '(num, rest) := span_number cs' in (c :: num, rest)
      else ([], cs)
  | [] => ([], [])
  end.

(** A number, optionally signed, followed by a length unit (or by nothing,
    as in ['0']). *)
Definition is_length (s : string) : bool :=
  let cs := list_ascii_of_string s in
  let unsigned := match cs with
                  | c :: cs' => if Ascii.eqb c "-"%char then cs' else cs
                  | [] => cs
                  end in
  let '(num, unit) := span_number unsigned in
  existsb is_digit num
  && bool_decide (string_of_list_ascii unit ∈ css_length_units).

(** A font size paired with its line height:
    [['0.75rem', { lineHeight: '1rem' }]]. *)
Definition is_line_height_pair (v : JsValue) : bool :=
  match v with
  | VArr [VStr size; VObj [(k, VStr height)]] =>
      is_length size && bool_decide (k = "lineHeight") && is_length height
  | _ => false
  end.

Definition is_token_value (v : JsValue) : bool :=
  match v with
  | VStr s => is_hex_color s || is_length s
  | _ => is_line_height_pair v
  end.

(** A CSS function call [name(...)] held in a string. *)
Definition is_css_function (name : string) (s : string) : bool :=
  String.prefix (name ++ "(") s
  && match rev (list_ascii_of_string s) with
     | c :: _ => Ascii.eqb c ")"%char
     | [] => false
     end.

(** A reference to a CSS custom property, [var(--name)]: the name of a
    custom property begins with two dashes. *)
Definition is_custom_property_reference (s : string) : bool :=
  is_css_function "var" s && String.prefix "var(--" s.

Definition is_css_function_value (v : JsValue) : bool :=
  match v with
  | VStr s => is_custom_property_reference s || is_css_function "clamp" s
  | _ => false
  end.

(** *** Content paths, safelist and blocklist *)

Definition content_patterns (cfg : JsValue) : option (list string) :=
  match get "content" cfg with
  | Some (VArr items) =>
      mapM (fun v => match v with VStr s => Some s | _ => None end) items
  | _ => None
  end.

Definition is_pattern_object (v : JsValue) : bool :=
  match get "pattern" v with
  | Some (VRegex _) => true
  | _ => false
  end.

Definition is_list_entry (v : JsValue) : bool :=
  is_string v || is_pattern_object v.

Definition list_entries (k : string) (cfg : JsValue) : list JsValue :=
  match get k cfg with
  | Some v => elements v
  | None => []
  end.

End Shape.

Import Shape.

(** ** Stylesheets *)

Module Css.

Inductive Decl : Type :=
| DApply (utilities : list string)
| DProp (name value : string).

Record Rule : Type := { selector : string; decls : list Decl }.

(** The statements the READMEs write at the top level of a sheet.  The
    frames of [@keyframes] are kept as rules whose selector is the frame
    ([0%], [from], ...). *)
Inductive Stmt : Type :=
| AtTailwind (layer : string)
| AtLayer (layer : string) (rules : list Rule)
| AtImport (url : string)
| AtFontFace (descriptors : list Decl)
| AtKeyframes (name : string) (frames : list Rule)
| AtMedia (query : string) (rules : list Rule)
| AtSupports (condition : string) (rules : list Rule)
| StyleRule (r : Rule)
| BareDecl (d : Decl).

(** Where a style rule stands: inside an [@layer] block, or outside every
    layer (at the top level, or under [@media] or [@supports]). *)
Inductive Origin : Type :=
| Unlayered
| Layered (layer : string).



(** The style rules of a sheet, in file order, each with where it
    stands. *)
Definition rules_with_origin (css : list Stmt) : list (Origin * Rule) :=
  flat_map
    (fun s =>
       match s with
       | AtLayer l rules => map (fun r => (Layered l, r)) rules
       | AtMedia _ rules | AtSupports _ rules => map (fun r => (Unlayered, r)) rules
       | StyleRule r => [(Unlayered, r)]
       | AtTailwind _ | AtImport _ | AtFontFace _ | AtKeyframes _ _ | BareDecl _ => []
       end)
    css.




Definition origin_of (sel : string) (css : list Stmt) : option Origin :=
  fst <$> List.find (fun r => bool_decide (selector (snd r) = sel)) (rules_with_origin css).

(** Functions & Directives README, "Cascade order (lowest to highest
    specificity)". *)
Definition cascade_order : list string := ["base"; "components"; "utilities"].

Definition precedence (layer : string) : option nat :=
  fst <$> list_find (fun l => l = layer) cascade_order.

(** [overrides a b]: rules of layer [a] win over rules of layer [b]. *)
Definition overrides (a b : string) : bool :=
  match precedence a, precedence b with
  | Some i, Some j => bool_decide (j < i)
  | _, _ => false
  end.


(** Custom Styles README, "Style Layer Priority", from lowest to highest
    priority. *)
Definition style_layer_priority : list string :=
  [ "Browser defaults";
    "Custom CSS (in order defined)";
    "@layer base";
    "@layer components";
    "@layer utilities";
    "Inline styles" ].

(** The level of that list a rule belongs to. *)
Definition origin_level (o : Origin) : string :=
  match o with
  | Unlayered => "Custom CSS (in order defined)"
  | Layered l => "@layer " ++ l
  end.

Definition priority (o : Origin) : option nat :=
  fst <$> list_find (fun level => level = origin_level o) style_layer_priority.

(** [rule_overrides a b]: a rule standing at [a] wins over a rule standing
    at [b]. *)
Definition rule_overrides (a b : Origin) : bool :=
  match priority a, priority b with
  | Some i, Some j => bool_decide (j < i)
  | _, _ => false
  end.


Fixpoint ascending (ns : list nat) : bool :=
  match ns with
  | a :: (b :: _) as rest => Nat.leb a b && ascending rest
  | _ => true
  end.

(** The rules of a sheet stand in the file from lowest to highest
    priority. *)
Definition lowest_first (css : list Stmt) : bool :=
  match mapM (fun r => priority (fst r)) (rules_with_origin css) with
  | Some ns => ascending ns
  | None => false
  end.

(** *** The sheets of the Functions & Directives README *)


(** "@layer" *)
Definition readme_layers : list Stmt :=
  [ AtLayer "components" [
      {| selector := ".btn-custom";
         decls := [ DApply ["px-4"; "py-2"; "bg-blue-600"; "text-white"; "rounded"] ] |} ];
    AtLayer "utilities" [
      {| selector := ".text-shadow";
         decls := [ DProp "text-shadow" "2px 2px 4px rgba(0, 0, 0, 0.1)" ] |} ] ].

(** "@apply" *)
Definition readme_apply : list Stmt :=
  [ StyleRule
      {| selector := ".btn-primary";
         decls := [ DApply ["px-6"; "py-3"; "bg-blue-600"; "text-white"; "rounded"];
                    DApply ["hover:bg-blue-700"; "active:bg-blue-800";
                            "transition-colors"] ] |} ].














(** *** The sheets of the Custom Styles README *)


(** "@apply", "Example - Button Component". *)
Definition custom_styles_button : list Stmt :=
  [ AtLayer "components" [
      {| selector := ".btn-primary";
         decls := [ DApply ["px-6"; "py-3"; "bg-blue-600"; "text-white";
                            "font-semibold"; "rounded-lg"];
                    DApply ["hover:bg-blue-700"; "active:bg-blue-800"];
                    DApply ["transition-colors"; "duration-200"] ] |} ] ].

(** "@layer" *)
Definition custom_styles_layers : list Stmt :=
  [ AtLayer "base" [
      {| selector := "h1";
         decls := [ DApply ["text-4xl"; "font-bold"; "mb-4"] ] |} ];
    AtLayer "components" [
      {| selector := ".btn";
         decls := [ DApply ["px-4"; "py-2"; "rounded"; "font-semibold"] ] |} ];
    AtLayer "utilities" [
      {| selector := ".text-shadow";
         decls := [ DProp "text-shadow" "2px 2px 4px rgba(0, 0, 0, 0.1)" ] |} ] ].






End Css.

Import Css.


(** ** The dark mode script *)

Module DarkMode.

(** What the script of the Dark Mode README ("Implementation Example")
    reads and writes: the class list of the [html] element, the local
    storage, and the answer of the [(prefers-color-scheme: dark)] media
    query. *)
Record Page : Type := {
  class_list : list string;
  local_storage : gmap string string;
  prefers_dark : bool
}.

(** [classList] is an ordered set of tokens: [add] appends a token that is
    not there yet, [remove] takes the token out, [toggle] does the one or
    the other and returns whether the token is there afterwards. *)
Definition add (token : string) (tokens : list string) : list string :=
  if decide (token ∈ tokens) then tokens else (tokens ++ [token])%list.

Definition remove (token : string) (tokens : list string) : list string :=
  filter (fun t => t <> token) tokens.

Definition toggle (token : string) (tokens : list string) : list string * bool :=
  if decide (token ∈ tokens) then (remove token tokens, false)
  else ((tokens ++ [token])%list, true).

(** [setItem] stores the string form of its argument; a boolean becomes
    ['true'] or ['false']. *)
Definition string_of_bool (b : bool) : string :=
  if b then "true" else "false".

(** [initDarkMode] *)
Definition initDarkMode (p : Page) : Page :=
  let saved := local_storage p !! "darkMode" in
  if decide (saved = Some "true") then
    {| class_list := add "dark" (class_list p);
       local_storage := local_storage p;
       prefers_dark := prefers_dark p |}
  else if decide (saved = Some "false") then
    {| class_list := remove "dark" (class_list p);
       local_storage := local_storage p;
       prefers_dark := prefers_dark p |}
  else if prefers_dark p then
    {| class_list := add "dark" (class_list p);
       local_storage := local_storage p;
       prefers_dark := prefers_dark p |}
  else p.

(** [toggleDarkMode] *)
Definition toggleDarkMode (p : Page) : Page :=
  let '(tokens, isDark) := toggle "dark" (class_list p) in
  {| class_list := tokens;
     local_storage := <["darkMode" := string_of_bool isDark]> (local_storage p);
     prefers_dark := prefers_dark p |}.

(** The [onclick] handler of the button under "Provide User Control": it
    toggles the class and stores the string ['true']. *)
Definition toggle_button_onclick (p : Page) : Page :=
  {| class_list := fst (toggle "dark" (class_list p));
     local_storage := <["darkMode" := "true"]> (local_storage p);
     prefers_dark := prefers_dark p |}.

(** Loading the page anew: the document comes with the classes of its
    markup, the local storage is the one the last visit left, and the
    script ends in the call [initDarkMode()]. *)
Definition page_load (markup : list string) (system_dark : bool)
    (stored : gmap string string) : Page :=
  initDarkMode
    {| class_list := markup; local_storage := stored; prefers_dark := system_dark |}.

Definition is_dark (p : Page) : Prop := "dark" ∈ class_list p.

End DarkMode.

(** ** Class names built at run time *)

Module DynamicClasses.

(** Detecting Classes README, "Dynamic Classes (Need Safelist)":
    [const colors = ['red', 'green', 'blue']]. *)
Definition colors : list string := ["red"; "green"; "blue"].

(** The template literal [`bg-${selectedColor}-500`]. *)
Definition class_name (selectedColor : string) : string :=
  "bg-" ++ selectedColor ++ "-500".

(** [colors[index]] inside the template: an index past the end reads
    [undefined], which the template prints as such. *)
Definition className (index : nat) : string :=
  class_name (default "undefined" (colors !! index)).

(** Detecting Classes README, "Troubleshooting": the two ways of choosing
    a class from a color. *)
Definition concatenated_class (color : string) : string := "bg-" ++ color.

Definition conditional_class (color : string) : string :=
  if decide (color = "red") then "bg-red-500" else "bg-blue-500".

End DynamicClasses.

(** ** The safelist pattern *)

Module Pattern.

(** The regular expressions of the safelist are sequences of literal text
    and groups of literal alternatives, [(red|green|blue)]. *)
Inductive Part : Type :=
| Lit (text : string)
| Alt (alternatives : list string).

(** The source text of a pattern, between the slashes. *)
Fixpoint join_alternatives (alternatives : list string) : string :=
  match alternatives with
  | [] => ""
  | [a] => a
  | a :: rest => a ++ "|" ++ join_alternatives rest
  end.

Definition part_source (part : Part) : string :=
  match part with
  | Lit text => text
  | Alt alternatives => "(" ++ join_alternatives alternatives ++ ")"
  end.

Definition source (pattern : list Part) : string :=
  fold_right (fun part rest => part_source part ++ rest) "" pattern.

(** The strings a pattern matches in full: one choice per group. *)
Fixpoint expansions (pattern : list Part) : list string :=
  match pattern with
  | [] => [""]
  | Lit text :: rest => map (String.append text) (expansions rest)
  | Alt alternatives :: rest =>
      flat_map (fun a => map (String.append a) (expansions rest)) alternatives
  end.

(** [occurs w s]: [w] is found in [s] at some offset. *)
Fixpoint occurs (w s : string) : bool :=
  String.prefix w s
  || match s with
     | EmptyString => false
     | String _ s' => occurs w s'
     end.

(** [pattern.test(s)]: the pattern is not anchored, so it matches when one
    of its expansions occurs somewhere in [s]. *)
Definition test (pattern : list Part) (s : string) : bool :=
  existsb (fun w => occurs w s) (expansions pattern).

(** Detecting Classes README, "Safelist (Force Inclusion)":
    [/bg-(red|green|blue)-(50|100|500)/]. *)
Definition safelist_pattern : list Part :=
  [ Lit "bg-"; Alt ["red"; "green"; "blue"]; Lit "-"; Alt ["50"; "100"; "500"] ].

End Pattern.

(** * Properties *)

(** ** Evaluation of literals *)

Section ExprInduction.

Variable P : Expr -> Prop.
Hypothesis HStr : forall s, P (EStr s).
Hypothesis HRegex : forall src, P (ERegex src).
Hypothesis HArr : forall items, Forall P items -> P (EArr items).
Hypothesis HObj : forall props, Forall (fun p => P (snd p)) props -> P (EObj props).
Hypothesis HVar : forall x, P (EVar x).
Hypothesis HAssign : forall x e, P e -> P (EAssign x e).
Hypothesis HDelete : forall x, P (EDelete x).

Fixpoint Expr_nested_ind (e : Expr) : P e :=
  match e with
  | EStr s => HStr s
  | ERegex src => HRegex src
  | EArr items =>
      HArr items
        ((fix all (es : list Expr) : Forall P es :=
            match es with
            | [] => @List.Forall_nil _ P
            | e' :: es' => @List.Forall_cons _ P e' es' (Expr_nested_ind e') (all es')
            end) items)
  | EObj props =>
      HObj props
        ((fix all (ps : list (PropName * Expr)) : Forall (fun p => P (snd p)) ps :=
            match ps with
            | [] => @List.Forall_nil _ _
            | p :: ps' =>
                @List.Forall_cons _ (fun p => P (snd p)) p ps' (Expr_nested_ind (snd p)) (all ps')
            end) props)
  | EVar x => HVar x
  | EAssign x e' => HAssign x e' (Expr_nested_ind e')
  | EDelete x => HDelete x
  end.

End ExprInduction.

(** A literal evaluates, in any store, to the value it denotes and leaves
    the store as it found it. *)
Lemma eval_literal (e : Expr) :
  is_literal e = true ->
  forall σ : gmap string JsValue, eval e σ = (σ, inr (literal_value e)).
Proof.
  induction e as [s | src | items IH | props IH | x | x e IH | x]
    using Expr_nested_ind; simpl; try discriminate; try reflexivity.
  - intros Hlit σ. unfold bind, ret.
    enough (Hitems :
      (fix eval_items (es : list Expr) : Eval (list JsValue) :=
         match es with
         | [] => fun σ0 => (σ0, inr [])
         | e' :: es' =>
             fun σ0 =>
               match eval e' σ0 with
               | (σ', inl err) => (σ', inl err)
               | (σ', inr a) =>
                   match eval_items es' σ' with
                   | (σ'', inl err) => (σ'', inl err)
                   | (σ'', inr a0) => (σ'', inr (a :: a0))
                   end
               end
         end) items σ = (σ, inr (map literal_value items))).
    { unfold bind, ret in *. rewrite Hitems. reflexivity. }
    revert Hlit. induction IH as [| e' es' He' _ IHes]; simpl; [reflexivity |].
    intros [Hhd Htl]%andb_prop. rewrite (He' Hhd σ), (IHes Htl). reflexivity.
  - intros Hlit σ. unfold bind, ret.
    enough (Hprops : forall acc,
      (fix eval_props (ps : list (PropName * Expr)) (acc0 : list (string * JsValue))
         : Eval (list (string * JsValue)) :=
         match ps with
         | [] => fun σ0 => (σ0, inr acc0)
         | (k, e') :: ps' =>
             fun σ0 =>
               match eval e' σ0 with
               | (σ', inl err) => (σ', inl err)
               | (σ', inr a) => eval_props ps' (define_property (prop_key k) a acc0) σ'
               end
         end) props acc σ
      = (σ, inr (fold_left
                   (fun acc0 p =>
                      define_property (prop_key (fst p)) (literal_value (snd p)) acc0)
                   props acc))).
    { unfold bind, ret in *. rewrite Hprops. reflexivity. }
    revert Hlit. induction IH as [| [k e'] ps' He' _ IHps]; simpl; [reflexivity |].
    intros [Hhd Htl]%andb_prop acc. simpl in He'. rewrite (He' Hhd σ).
    apply IHps, Htl.
Qed.

(** Defining a property never duplicates a key: a key already present is
    kept where it is, a fresh one goes to the end. *)
Lemma define_property_keys (k : string) (v : JsValue) (props : list (string * JsValue)) :
  map fst (define_property k v props)
  = if bool_decide (k ∈ map fst props) then map fst props else (map fst props ++ [k])%list.
Proof.
  induction props as [| [k' v'] rest IH]; simpl; [reflexivity |].
  destruct (decide (k = k')) as [-> | Hne]; simpl.
  - rewrite bool_decide_eq_true_2; [reflexivity | constructor].
  - rewrite IH. destruct (decide (k ∈ map fst rest)) as [Hin | Hnin].
    + rewrite !bool_decide_eq_true_2; [reflexivity | by constructor | done].
    + rewrite !bool_decide_eq_false_2; [reflexivity | | done].
      intros Hin. apply elem_of_cons in Hin as [? | ?]; done.
Qed.

Lemma define_property_NoDup (k : string) (v : JsValue) (props : list (string * JsValue)) :
  NoDup (map fst props) -> NoDup (map fst (define_property k v props)).
Proof.
  intros Hnd. rewrite define_property_keys. case_bool_decide as Hin; [done |].
  apply NoDup_app. split; [done |]. split; [| apply NoDup_singleton].
  intros x Hx Hk. apply list_elem_of_singleton in Hk as ->. done.
Qed.

(** The evaluator does model effects and errors: outside the literal
    fragment an expression can fail or change the store. *)
Example eval_unbound_identifier :
  eval (EVar "plugin") ∅ = (∅, inl (ReferenceError "plugin")).
Proof. reflexivity. Qed.

Example eval_assignment_creates_binding :
  eval (EAssign "cache" (EArr [])) ∅ = ({["cache" := VArr []]}, inr (VArr [])).
Proof. reflexivity. Qed.

Example eval_delete_destroys_binding :
  eval (EDelete "cache") {["cache" := VArr []]} = (∅, inr (VBool true)).
Proof. simpl. by rewrite delete_singleton_eq. Qed.

(** A later definition of a key replaces the earlier one in place. *)
Example duplicate_key_last_wins :
  evaluate (EObj [(PIdent "a", EStr "1"); (PIdent "b", EStr "2"); (PNum 7, EStr "3");
                  (PQuoted "a", EStr "4"); (PQuoted "7", EStr "5")])
  = Some (VObj [("a", VStr "4"); ("b", VStr "2"); ("7", VStr "5")]).
Proof. reflexivity. Qed.

(** ** The configuration files *)

(** C9: evaluating a configuration module of the repository is effect
    free.  In whatever store it is run, the module returns normally (no
    error), the store afterwards is the store before (nothing is created,
    updated or removed), and the value returned is one fixed object that
    does not depend on the store. *)
Theorem config_modules_are_constant_literals :
  Forall
    (fun f =>
       exists v : JsValue,
         is_object v = true
         /\ forall σ : gmap string JsValue, run_module (snd f) σ = (σ, inr v))
    config_files.
Proof.
  repeat apply Forall_cons_2; try apply Forall_nil_2;
    (eexists; split; [| intros σ; apply eval_literal]); reflexivity.
Qed.

(** C1: each configuration file exports a single object, and every
    top-level key of that object is one of [content], [theme], [darkMode],
    [safelist], [blocklist], [plugins]. *)
Theorem config_top_level_keys_recognized :
  Forall
    (fun f =>
       exists v : JsValue,
         exported (snd f) = Some v
         /\ is_object v = true
         /\ Forall (fun k => k ∈ recognized_keys) (own_keys v))
    config_files.
Proof.
  repeat apply Forall_cons_2; try apply Forall_nil_2;
    (eexists; split; [reflexivity | split; [reflexivity |]]);
    simpl; repeat constructor.
Qed.

(** The README examples stay within the same key set, and together with
    the configuration files they use each of the six keys. *)
Lemma readme_top_level_keys_recognized :
  Forall
    (fun f =>
       exists v : JsValue,
         exported (snd f) = Some v
         /\ Forall (fun k => k ∈ recognized_keys) (own_keys v))
    readme_examples.
Proof.
  repeat apply Forall_cons_2; try apply Forall_nil_2;
    (eexists; split; [reflexivity |]); simpl; repeat constructor.
Qed.

(** C2: in each configuration file the [theme] object has the single key
    [extend], so every design category the file customizes is placed
    inside [theme.extend] (additive) and none is placed directly under
    [theme] (replacement). *)
Theorem theme_customization_inside_extend :
  Forall
    (fun f =>
       exists v : JsValue,
         exported (snd f) = Some v
         /\ own_keys <$> get "theme" v = Some ["extend"]
         /\ List.filter is_replacement (theme_categories v) = [])
    config_files.
Proof.
  repeat apply Forall_cons_2; try apply Forall_nil_2;
    (eexists; split; [reflexivity | split; reflexivity]).
Qed.

(** The categories of the functions-directives file, all additive. *)
Example functions_directives_categories :
  (fun v => map (fun c => fst c) (theme_categories v)) <$> exported functions_directives_config
  = Some [(Additive, "colors"); (Additive, "spacing"); (Additive, "fontSize")].
Proof. reflexivity. Qed.

(** The placement test does tell the two apart: the palette example of the
    Colors README sets [theme.colors] directly. *)
Example readme_palette_is_replacement :
  (fun v => map (fun c => fst c) (theme_categories v)) <$> exported readme_palette_example
  = Some [(Replacement, "colors")].
Proof. reflexivity. Qed.

(** C5: in each configuration file [content] is an array of strings, it
    is not empty, and ["./index.html"] is one of its entries. *)
Theorem content_lists_index_html :
  Forall
    (fun f =>
       exists (v : JsValue) (patterns : list string),
         exported (snd f) = Some v
         /\ content_patterns v = Some patterns
         /\ 0 < length patterns
         /\ "./index.html" ∈ patterns)
    config_files.
Proof.
  repeat apply Forall_cons_2; try apply Forall_nil_2;
    (do 2 eexists; split; [reflexivity | split; [reflexivity | split]]);
    simpl; [lia | constructor | lia | constructor].
Qed.

(** In both files the index page comes first and the source glob second. *)
Example content_order :
  Forall
    (fun f => exported (snd f) ≫= content_patterns
              = Some ["./index.html"; "./src/**/*.{js,ts,jsx,tsx}"])
    config_files.
Proof. repeat constructor. Qed.

(** C10: in each configuration file [plugins] is the empty array and
    [darkMode], [safelist] and [blocklist] are absent; every top-level
    property other than [content] and [theme] holds the empty array. *)
Theorem plugins_empty_and_optional_keys_absent :
  Forall
    (fun f =>
       exists props : list (string * JsValue),
         exported (snd f) = Some (VObj props)
         /\ get "plugins" (VObj props) = Some (VArr [])
         /\ get "darkMode" (VObj props) = None
         /\ get "safelist" (VObj props) = None
         /\ get "blocklist" (VObj props) = None
         /\ Forall (fun p => snd p = VArr [])
              (List.filter
                 (fun p => negb (bool_decide (fst p ∈ ["content"; "theme"])))
                 props))
    config_files.
Proof.
  repeat apply Forall_cons_2; try apply Forall_nil_2;
    (eexists; split; [reflexivity |]); repeat split; repeat constructor.
Qed.

(** ** Token scales *)

Example shade_keys_spelled_out :
  shade_keys = ["50"; "100"; "200"; "300"; "400"; "500"; "600"; "700"; "800"; "900"].
Proof. reflexivity. Qed.

(** C3 as stated does not hold: the only color scale of a configuration
    file, [colors.brand] of the functions-directives project, has three named keys and so is not a
    ten-shade scale. *)
Lemma functions_directives_brand_not_ten_shades :
  color_scales <$> exported functions_directives_config
  = Some [("brand", [("light", VStr "var(--color-brand-light)");
                     ("DEFAULT", VStr "var(--color-brand)");
                     ("dark", VStr "var(--color-brand-dark)")])]
  /\ ~ complete_color_scale [("light", VStr "var(--color-brand-light)");
                             ("DEFAULT", VStr "var(--color-brand)");
                             ("dark", VStr "var(--color-brand-dark)")].
Proof.
  split; [reflexivity |].
  intros Hperm. apply Permutation_length in Hperm. discriminate Hperm.
Qed.

(** C3 (amended): the brand scale of the Theme Variables README's "Create
    Color Scales" example has exactly the ten shade keys 50, 100, ..., 900;
    the color scale of the configuration files, [colors.brand] of
    functions-directives, has exactly the keys [light], [DEFAULT], [dark];
    the brand scale of the Colors README example has exactly the shade keys
    50, 500, 900. *)
Theorem color_scale_keys :
  (exists scale : list (string * JsValue),
      evaluate readme_brand_scale = Some (VObj scale)
      /\ map fst scale = shade_keys
      /\ complete_color_scale scale
      /\ length scale = 10)
  /\ Forall
       (fun f =>
          exists v : JsValue,
            exported (snd f) = Some v
            /\ Forall (fun s => map fst (snd s) = ["light"; "DEFAULT"; "dark"])
                 (color_scales v))
       config_files
  /\ (exists v : JsValue,
        exported readme_palette_example = Some v
        /\ map (fun s => map fst (snd s)) (color_scales v) = [["50"; "500"; "900"]]).
Proof.
  split; [| split].
  - eexists; split; [reflexivity |]. repeat split. unfold complete_color_scale.
    reflexivity.
  - repeat apply Forall_cons_2; try apply Forall_nil_2;
      (eexists; split; [reflexivity |]); repeat constructor.
  - eexists; split; reflexivity.
Qed.

(** C4 as stated does not hold: a value of the [colors.brand] scale of
    functions-directives is a reference to a CSS custom property: not a hex code, not a length, not
    a line-height pair. *)
Lemma brand_light_not_token_value :
  (exists v : JsValue,
      exported functions_directives_config = Some v
      /\ (["colors"; "brand"],
          [("light", VStr "var(--color-brand-light)");
           ("DEFAULT", VStr "var(--color-brand)");
           ("dark", VStr "var(--color-brand-dark)")]) ∈ config_scales v)
  /\ is_hex_color "var(--color-brand-light)" = false
  /\ is_length "var(--color-brand-light)" = false
  /\ is_line_height_pair (VStr "var(--color-brand-light)") = false
  /\ is_token_value (VStr "var(--color-brand-light)") = false.
Proof.
  split; [eexists; split; [reflexivity | constructor] |].
  repeat split.
Qed.

(** C4 (amended): every value stored in a token scale of the configuration
    files is a color hex code, a length string, a line-height pair, or a
    string holding a CSS function call, [var(--...)] or [clamp(...)]; no
    other value shape occurs. *)
Theorem scale_values_are_token_values_or_css_functions :
  Forall
    (fun f =>
       exists v : JsValue,
         exported (snd f) = Some v
         /\ Forall (fun x => is_token_value x || is_css_function_value x = true)
              (scale_values v))
    config_files.
Proof.
  repeat apply Forall_cons_2; try apply Forall_nil_2;
    (eexists; split; [reflexivity |]); repeat constructor.
Qed.

Example functions_directives_scale_values :
  scale_values <$> exported functions_directives_config
  = Some [VStr "var(--color-brand-light)"; VStr "var(--color-brand)";
          VStr "var(--color-brand-dark)"; VStr "var(--spacing-dynamic)";
          VStr "clamp(1rem, 2.5vw, 2.5rem)"].
Proof. reflexivity. Qed.

(** The test for a CSS function call asks for the two dashes of a custom
    property and for the closing parenthesis. *)
Example css_function_value_rejects :
  is_css_function_value (VStr "var(color-brand)") = false
  /\ is_css_function_value (VStr "var(--color-brand") = false
  /\ is_css_function_value (VStr "calc(1rem + 2px)") = false
  /\ is_css_function_value (VStr "#f0f9ff") = false
  /\ is_css_function_value (VArr [VStr "clamp(1rem, 2.5vw, 2.5rem)"]) = false.
Proof. repeat split. Qed.

(** Shapes in the README scales: the spacing, radius and font-size scales
    of the Theme Variables README hold lengths and line-height pairs, the
    brand scale of the Colors README holds hex codes; the shadow scale
    holds values of neither shape. *)
Example readme_token_values :
  Forall
    (fun e =>
       exists scale : list (string * JsValue),
         evaluate e = Some (VObj scale)
         /\ Forall (fun p => is_token_value (snd p) = true) scale)
    [readme_spacing; readme_border_radius; readme_font_size]
  /\ (exists v : JsValue,
        exported readme_palette_example = Some v
        /\ Forall (fun s => Forall (fun p => is_token_value (snd p) = true) (snd s))
             (color_scales v))
  /\ (exists scale : list (string * JsValue),
        evaluate readme_box_shadow = Some (VObj scale)
        /\ map (fun p => is_token_value (snd p)) scale
           = [false; false; false; false; false; false; false]).
Proof.
  split; [| split].
  - repeat apply Forall_cons_2; try apply Forall_nil_2;
      (eexists; split; [reflexivity |]); repeat constructor.
  - eexists; split; [reflexivity |]. repeat constructor.
  - eexists; split; reflexivity.
Qed.

(** C6: within every token scale of the configuration files the keys are
    pairwise distinct, both in the exported object and in the object
    literal as written (no property is overwritten by a later one of the
    same name).  Across scales nothing of the kind holds in the
    repository: the radius and the shadow scale of the Theme Variables
    README share the key [sm]. *)
Theorem scale_keys_distinct :
  Forall
    (fun f =>
       exists v : JsValue,
         exported (snd f) = Some v
         /\ Forall (fun s => NoDup (map fst (snd s))) (config_scales v)
         /\ Forall (fun keys => NoDup keys) (object_literals (default_export (snd f))))
    config_files
  /\ (exists radius shadow : JsValue,
        evaluate readme_border_radius = Some radius
        /\ evaluate readme_box_shadow = Some shadow
        /\ NoDup (own_keys radius)
        /\ NoDup (own_keys shadow)
        /\ "sm" ∈ own_keys radius
        /\ "sm" ∈ own_keys shadow).
Proof.
  split.
  - repeat apply Forall_cons_2; try apply Forall_nil_2;
      (eexists; split; [reflexivity | split]);
      simpl; repeat apply Forall_cons_2; try apply Forall_nil_2; compute_done.
  - do 2 eexists. split; [reflexivity | split; [reflexivity |]].
    repeat split; compute_done.
Qed.

(** The scales of the functions-directives file, by path, with their keys. *)
Example functions_directives_scale_keys :
  map (fun s => (fst s, map fst (snd s))) <$>
    (config_scales <$> exported functions_directives_config)
  = Some [ (["colors"; "brand"], ["light"; "DEFAULT"; "dark"]);
           (["spacing"], ["dynamic"]);
           (["fontSize"], ["responsive"]) ].
Proof. reflexivity. Qed.

(** ** Safelist and blocklist *)

(** C8: every safelist entry and every blocklist entry of the
    configuration examples (the configuration files and the README
    examples) is a string or an object with a [pattern] regular
    expression; both shapes occur. *)
Theorem list_entries_are_strings_or_patterns :
  Forall
    (fun f =>
       exists v : JsValue,
         exported (snd f) = Some v
         /\ Forall (fun x => is_list_entry x = true)
              (list_entries "safelist" v ++ list_entries "blocklist" v))
    (config_files ++ readme_examples)
  /\ (exists v : JsValue,
        exported readme_safelist_example = Some v
        /\ list_entries "safelist" v
           = [VStr "bg-red-500"; VStr "bg-blue-500"; VStr "text-white";
              VObj [("pattern", VRegex "bg-(red|green|blue)-(50|100|500)")]])
  /\ (exists v : JsValue,
        exported readme_blocklist_example = Some v
        /\ list_entries "blocklist" v = [VStr "container"; VStr "px-0.5"]).
Proof.
  split; [| split; eexists; split; reflexivity].
  repeat apply Forall_cons_2; try apply Forall_nil_2;
    (eexists; split; [reflexivity |]); repeat constructor.
Qed.

(** The entry test rejects other shapes. *)
Example list_entry_rejects :
  is_list_entry (VArr [VStr "bg-red-500"]) = false
  /\ is_list_entry (VObj [("pattern", VStr "bg-red-500")]) = false
  /\ is_list_entry (VRegex "bg-.*") = false.
Proof. repeat split. Qed.

(** ** Stylesheet entries and cascade layers *)



(** A layer outside the three has no precedence and overrides nothing. *)
Example unknown_layer_has_no_precedence :
  precedence "theme" = None /\ overrides "theme" "base" = false
  /\ priority (Layered "theme") = None
  /\ rule_overrides (Layered "theme") Unlayered = false.
Proof. repeat split. Qed.

(** Written the other way round a sheet is not lowest first. *)
Example lowest_first_rejects :
  lowest_first (rev custom_styles_layers) = false
  /\ lowest_first (readme_layers ++ readme_apply) = false
  /\ lowest_first (readme_apply ++ readme_layers) = true.
Proof. repeat split. Qed.

(** The same selector stands outside the layers in one README and in the
    components layer in the other; the layered rule is the one that
    wins. *)
Example btn_primary_layered_wins :
  origin_of ".btn-primary" readme_apply = Some Unlayered
  /\ origin_of ".btn-primary" custom_styles_button = Some (Layered "components")
  /\ rule_overrides (Layered "components") Unlayered = true.
Proof. repeat split. Qed.

(** ** The dark mode script *)

Import DarkMode.

Lemma elem_of_add (token t : string) (tokens : list string) :
  t ∈ add token tokens <-> t = token \/ t ∈ tokens.
Proof.
  unfold add. destruct (decide (token ∈ tokens)) as [Hin | Hnin].
  - split; [by right | intros [-> | ?]; done].
  - rewrite elem_of_app, list_elem_of_singleton. tauto.
Qed.

Lemma elem_of_remove (token t : string) (tokens : list string) :
  t ∈ remove token tokens <-> t <> token /\ t ∈ tokens.
Proof. unfold remove. by rewrite list_elem_of_filter. Qed.

Lemma add_present (token : string) (tokens : list string) :
  token ∈ tokens -> add token tokens = tokens.
Proof. intros Hin. unfold add. by rewrite decide_True. Qed.

Lemma remove_absent (token : string) (tokens : list string) :
  token ∉ tokens -> remove token tokens = tokens.
Proof.
  unfold remove. induction tokens as [| t rest IH]; [reflexivity |].
  intros Hnin. apply not_elem_of_cons in Hnin as [Hne Hrest].
  rewrite filter_cons_True by congruence. by rewrite IH.
Qed.

Lemma remove_add (token : string) (tokens : list string) :
  remove token (add token tokens) = remove token tokens.
Proof.
  unfold add. destruct (decide (token ∈ tokens)); [reflexivity |].
  unfold remove. rewrite filter_app, filter_cons_False, filter_nil by (intros H; by apply H).
  apply app_nil_r.
Qed.

Lemma remove_remove (token : string) (tokens : list string) :
  remove token (remove token tokens) = remove token tokens.
Proof. apply remove_absent. rewrite elem_of_remove. tauto. Qed.

Lemma toggle_spec (token : string) (tokens : list string) :
  toggle token tokens
  = if decide (token ∈ tokens) then (remove token tokens, false)
    else (add token tokens, true).
Proof.
  unfold toggle, add. destruct (decide (token ∈ tokens)); reflexivity.
Qed.

(** What [toggleDarkMode] leaves in place, case by case. *)
Lemma toggleDarkMode_cases (p : Page) :
  (is_dark p
   /\ toggleDarkMode p
      = {| class_list := remove "dark" (class_list p);
           local_storage := <["darkMode" := "false"]> (local_storage p);
           prefers_dark := prefers_dark p |})
  \/ (~ is_dark p
      /\ toggleDarkMode p
         = {| class_list := (class_list p ++ ["dark"])%list;
              local_storage := <["darkMode" := "true"]> (local_storage p);
              prefers_dark := prefers_dark p |}).
Proof.
  unfold toggleDarkMode, toggle, is_dark.
  destruct (decide ("dark" ∈ class_list p)); [left | right]; done.
Qed.

Lemma toggleDarkMode_is_dark (p : Page) :
  is_dark (toggleDarkMode p) <-> ~ is_dark p.
Proof.
  destruct (toggleDarkMode_cases p) as [[Hdark ->] | [Hlight ->]];
    unfold is_dark in *; simpl.
  - rewrite elem_of_remove. tauto.
  - rewrite elem_of_app, list_elem_of_singleton. tauto.
Qed.

(** X1: [toggleDarkMode] flips the [dark] class and nothing else: the
    other classes keep their order, the other storage keys their values,
    and the media query its answer. *)
Theorem toggle_flips_dark_only (p : Page) :
  (is_dark (toggleDarkMode p) <-> ~ is_dark p)
  /\ remove "dark" (class_list (toggleDarkMode p)) = remove "dark" (class_list p)
  /\ delete "darkMode" (local_storage (toggleDarkMode p))
     = delete "darkMode" (local_storage p)
  /\ prefers_dark (toggleDarkMode p) = prefers_dark p.
Proof.
  split; [apply toggleDarkMode_is_dark |].
  destruct (toggleDarkMode_cases p) as [[Hdark ->] | [Hlight ->]];
    unfold is_dark in *; simpl.
  - repeat split.
    + apply remove_remove.
    + apply delete_insert_eq.
  - repeat split.
    + rewrite <- (remove_add "dark" (class_list p)).
      unfold add. by rewrite decide_False.
    + apply delete_insert_eq.
Qed.

(** X2: after [toggleDarkMode] the stored preference says what the page
    shows: ['true'] when the [dark] class is on, ['false'] when it is
    off. *)
Theorem toggle_records_state (p : Page) :
  local_storage (toggleDarkMode p) !! "darkMode"
  = Some (string_of_bool (bool_decide (is_dark (toggleDarkMode p)))).
Proof.
  destruct (toggleDarkMode_cases p) as [[Hdark ->] | [Hlight ->]];
    unfold is_dark in *; simpl; rewrite lookup_insert_eq.
  - rewrite bool_decide_eq_false_2; [reflexivity |].
    rewrite elem_of_remove. tauto.
  - rewrite bool_decide_eq_true_2; [reflexivity |].
    apply elem_of_app. right. constructor.
Qed.

(** X3: two calls of [toggleDarkMode] bring every class back (the page
    shows what it showed), and the storage then records that state. *)
Theorem toggle_twice (p : Page) :
  (forall t : string,
      t ∈ class_list (toggleDarkMode (toggleDarkMode p)) <-> t ∈ class_list p)
  /\ local_storage (toggleDarkMode (toggleDarkMode p))
     = <["darkMode" := string_of_bool (bool_decide (is_dark p))]> (local_storage p).
Proof.
  destruct (toggleDarkMode_cases p) as [[Hdark Hp] | [Hlight Hp]].
  - destruct (toggleDarkMode_cases (toggleDarkMode p)) as [[Hdark' _] | [_ ->]].
    { apply toggleDarkMode_is_dark in Hdark'. done. }
    rewrite Hp; simpl. split.
    + intros t. rewrite elem_of_app, list_elem_of_singleton, elem_of_remove.
      unfold is_dark in Hdark. destruct (decide (t = "dark")) as [-> | ?]; tauto.
    + rewrite insert_insert_eq. by rewrite bool_decide_eq_true_2.
  - destruct (toggleDarkMode_cases (toggleDarkMode p)) as [[_ ->] | [Hlight' _]].
    2:{ exfalso. apply Hlight'. by apply toggleDarkMode_is_dark. }
    rewrite Hp; simpl. split.
    + intros t. rewrite elem_of_remove, elem_of_app, list_elem_of_singleton.
      unfold is_dark in Hlight. destruct (decide (t = "dark")) as [-> | ?]; tauto.
    + rewrite insert_insert_eq. by rewrite bool_decide_eq_false_2.
Qed.

(** The class list itself need not come back: the token is appended, so
    it can change place. *)
Example toggle_twice_moves_token :
  class_list
    (toggleDarkMode
       (toggleDarkMode
          {| class_list := ["dark"; "scroll-smooth"];
             local_storage := ∅; prefers_dark := false |}))
  = ["scroll-smooth"; "dark"].
Proof. reflexivity. Qed.

(** X4: what [initDarkMode] shows.  A saved ['true'] turns the [dark]
    class on and a saved ['false'] turns it off, whatever the system
    preference and the markup say; with any other saved value, or none,
    the system preference can turn the class on but nothing turns it
    off. *)
Theorem init_shows_saved_preference (p : Page) :
  is_dark (initDarkMode p)
  <-> local_storage p !! "darkMode" = Some "true"
      \/ (local_storage p !! "darkMode" <> Some "false"
          /\ (prefers_dark p = true \/ is_dark p)).
Proof.
  unfold initDarkMode, is_dark.
  destruct (decide (local_storage p !! "darkMode" = Some "true")) as [Htrue | Hnt];
    [| destruct (decide (local_storage p !! "darkMode" = Some "false")) as [Hfalse | Hnf];
       [| destruct (prefers_dark p) eqn:Hsys]];
    cbn [class_list]; rewrite ?elem_of_add, ?elem_of_remove.
  - tauto.
  - split; [tauto |]. intros [Heq | [Hne _]]; [congruence | done].
  - tauto.
  - split; [tauto |]. intros [Heq | [_ [Heq | Hin]]]; [done | discriminate | done].
Qed.

(** X5: [initDarkMode] writes nothing to the storage and touches no
    class but [dark]. *)
Theorem init_frame (p : Page) :
  local_storage (initDarkMode p) = local_storage p
  /\ prefers_dark (initDarkMode p) = prefers_dark p
  /\ remove "dark" (class_list (initDarkMode p)) = remove "dark" (class_list p).
Proof.
  unfold initDarkMode.
  destruct (decide (local_storage p !! "darkMode" = Some "true")) as [Htrue | Hnt];
    [| destruct (decide (local_storage p !! "darkMode" = Some "false")) as [Hfalse | Hnf];
       [| destruct (prefers_dark p) eqn:Hsys]];
    cbn [class_list local_storage prefers_dark];
    repeat split; auto using remove_add, remove_remove.
Qed.

(** X6: running [initDarkMode] a second time changes nothing. *)
Theorem init_idempotent (p : Page) :
  initDarkMode (initDarkMode p) = initDarkMode p.
Proof.
  unfold initDarkMode.
  destruct (decide (local_storage p !! "darkMode" = Some "true")) as [Htrue | Hnt];
    [| destruct (decide (local_storage p !! "darkMode" = Some "false")) as [Hfalse | Hnf];
       [| destruct (prefers_dark p) eqn:Hsys]];
    cbn [class_list local_storage prefers_dark].
  - rewrite decide_True by exact Htrue. f_equal.
    apply add_present, elem_of_add. by left.
  - rewrite decide_False by exact Hnt. rewrite decide_True by exact Hfalse.
    f_equal. apply remove_remove.
  - rewrite decide_False by exact Hnt. rewrite decide_False by exact Hnf.
    f_equal. apply add_present, elem_of_add. by left.
  - rewrite decide_False by exact Hnt. rewrite decide_False by exact Hnf.
    by rewrite Hsys.
Qed.

(** X7: right after [toggleDarkMode], [initDarkMode] finds the page as
    the saved preference wants it and changes nothing. *)
Theorem init_after_toggle (p : Page) :
  initDarkMode (toggleDarkMode p) = toggleDarkMode p.
Proof.
  destruct (toggleDarkMode_cases p) as [[Hdark ->] | [Hlight ->]];
    unfold initDarkMode; cbn [class_list local_storage prefers_dark];
    rewrite lookup_insert_eq.
  - rewrite decide_False by discriminate. rewrite decide_True by reflexivity.
    f_equal. apply remove_remove.
  - rewrite decide_True by reflexivity. f_equal.
    apply add_present, elem_of_app. right. constructor.
Qed.

(** X8: the choice made with [toggleDarkMode] survives a reload: whatever
    classes the markup carries and whatever the system prefers, the page
    loaded with the storage the toggle left shows dark exactly when the
    page showed dark after the toggle. *)
Theorem reload_restores_toggle (p : Page) (markup : list string) (system_dark : bool) :
  is_dark (page_load markup system_dark (local_storage (toggleDarkMode p)))
  <-> is_dark (toggleDarkMode p).
Proof.
  rewrite toggleDarkMode_is_dark.
  destruct (toggleDarkMode_cases p) as [[Hdark ->] | [Hlight ->]];
    unfold page_load, initDarkMode, is_dark in *;
    cbn [class_list local_storage prefers_dark];
    rewrite lookup_insert_eq.
  - rewrite decide_False by discriminate. rewrite decide_True by reflexivity.
    cbn [class_list]. rewrite elem_of_remove. tauto.
  - rewrite decide_True by reflexivity.
    cbn [class_list]. rewrite elem_of_add. tauto.
Qed.

(** X9: the button of "Provide User Control" stores ['true'] on every
    click.  The click flips the class, but the next load of the page
    always shows dark, also when the click had turned dark off. *)
Theorem onclick_reload_always_dark (p : Page) (markup : list string) (system_dark : bool) :
  (is_dark (toggle_button_onclick p) <-> ~ is_dark p)
  /\ local_storage (toggle_button_onclick p) !! "darkMode" = Some "true"
  /\ is_dark (page_load markup system_dark (local_storage (toggle_button_onclick p))).
Proof.
  split; [| split].
  - unfold toggle_button_onclick, is_dark. cbn [class_list]. rewrite toggle_spec.
    destruct (decide ("dark" ∈ class_list p)); cbn [fst];
      rewrite ?elem_of_remove, ?elem_of_add; tauto.
  - apply lookup_insert_eq.
  - unfold page_load, initDarkMode, toggle_button_onclick, is_dark.
    cbn [class_list local_storage prefers_dark]. rewrite lookup_insert_eq.
    rewrite decide_True by reflexivity. cbn [class_list].
    apply elem_of_add. by left.
Qed.

Example onclick_loses_light_choice :
  class_list
    (toggle_button_onclick
       {| class_list := ["dark"]; local_storage := ∅; prefers_dark := false |}) = []
  /\ class_list
       (page_load [] false
          (local_storage
             (toggle_button_onclick
                {| class_list := ["dark"]; local_storage := ∅; prefers_dark := false |})))
     = ["dark"].
Proof. split; vm_compute; reflexivity. Qed.

(** ** Class names built at run time *)

Import DynamicClasses.

Lemma string_length_app (a b : string) :
  String.length (a ++ b) = String.length a + String.length b.
Proof.
  induction a as [| c a IH]; [reflexivity |].
  change (String c a ++ b) with (String c (a ++ b)).
  cbn [String.length]. by rewrite IH.
Qed.

Lemma string_app_inj_r (suffix a b : string) :
  a ++ suffix = b ++ suffix -> a = b.
Proof.
  revert b. induction a as [| c a IH]; intros [| d b] Heq.
  - reflexivity.
  - exfalso. apply (f_equal String.length) in Heq.
    rewrite !string_length_app in Heq. cbn [String.length] in Heq. lia.
  - exfalso. apply (f_equal String.length) in Heq.
    rewrite !string_length_app in Heq. cbn [String.length] in Heq. lia.
  - change (String c (a ++ suffix) = String d (b ++ suffix)) in Heq.
    injection Heq as -> Heq. f_equal. by apply IH.
Qed.

(** X11: the template keeps colors apart: two colors give the same class
    name only if they are the same color. *)
Theorem class_name_injective (c1 c2 : string) :
  class_name c1 = class_name c2 <-> c1 = c2.
Proof.
  split; [| by intros ->].
  unfold class_name. intros Heq.
  apply (inj (String.append "bg-")) in Heq.
  by apply string_app_inj_r in Heq.
Qed.

Lemma className_in_range (index : nat) :
  index < length colors ->
  className index ∈ ["bg-red-500"; "bg-green-500"; "bg-blue-500"].
Proof.
  destruct index as [| [| [| index]]]; cbn [length colors]; intros Hlt;
    [vm_compute; repeat constructor .. | lia].
Qed.

Lemma className_out_of_range (index : nat) :
  length colors <= index -> className index = "bg-undefined-500".
Proof.
  destruct index as [| [| [| index]]]; cbn [length colors]; intros Hle;
    [lia .. | reflexivity].
Qed.

(** X10: the class names the random pick can produce are exactly the
    safelisted ones: [className index] is an entry of the safelist shown
    next to the snippet if and only if the index lies within [colors]; an
    index past the end gives [bg-undefined-500]. *)
Theorem dynamic_class_safelisted (index : nat) :
  exists v : JsValue,
    exported readme_dynamic_safelist_example = Some v
    /\ (VStr (className index) ∈ list_entries "safelist" v
        <-> index < length colors).
Proof.
  exists (VObj [("safelist", VArr [VStr "bg-red-500"; VStr "bg-green-500"; VStr "bg-blue-500"])]).
  split; [vm_compute; reflexivity |].
  change (list_entries "safelist" _)
    with (VStr <$> ["bg-red-500"; "bg-green-500"; "bg-blue-500"]).
  rewrite list_elem_of_fmap. split.
  - intros (name & [= Hname] & Hin).
    destruct (decide (index < length colors)) as [Hlt | Hge]; [exact Hlt |].
    rewrite className_out_of_range in Hname by lia. subst name.
    exfalso. revert Hin. rewrite !elem_of_cons, elem_of_nil.
    intros [H | [H | [H | []]]]; discriminate H.
  - intros Hlt. exists (className index). split; [reflexivity |].
    by apply className_in_range.
Qed.

(** ** The safelist pattern *)

Import Pattern.

(** The pattern is the one written in the safelist example. *)
Example safelist_pattern_source :
  exists v : JsValue,
    exported readme_safelist_example = Some v
    /\ VObj [("pattern", VRegex (source safelist_pattern))] ∈ list_entries "safelist" v.
Proof.
  eexists. split; [vm_compute; reflexivity |]. vm_compute. repeat constructor.
Qed.

Lemma occurs_here (w s : string) : String.prefix w s = true -> occurs w s = true.
Proof. intros Hpre. destruct s; cbn [occurs]; rewrite Hpre; reflexivity. Qed.

Lemma occurs_later (w : string) (c : ascii) (s : string) :
  occurs w s = true -> occurs w (String c s) = true.
Proof. intros Hocc. cbn [occurs]. rewrite Hocc. apply orb_true_r. Qed.

Lemma prefix_app (w rest : string) : String.prefix w (w ++ rest) = true.
Proof.
  induction w as [| c w IH]; [by destruct rest |].
  change (String c w ++ rest) with (String c (w ++ rest)).
  cbn [String.prefix]. destruct (ascii_dec c c); [exact IH | done].
Qed.

(** An expansion that sits anywhere in a string makes the pattern match
    it. *)
Lemma test_infix (pattern : list Part) (before w after : string) :
  w ∈ expansions pattern -> test pattern (before ++ w ++ after) = true.
Proof.
  intros Hin. unfold test. apply existsb_exists. exists w.
  split; [by apply list_elem_of_In |].
  induction before as [| c before IH].
  - change ("" ++ w ++ after) with (w ++ after). apply occurs_here, prefix_app.
  - change (String c before ++ w ++ after) with (String c (before ++ w ++ after)).
    by apply occurs_later.
Qed.

(** X12: the safelist pattern covers the snippet of "Dynamic Classes":
    every class name the random pick can produce is matched, also behind
    a variant prefix such as [hover:]. *)
Theorem safelist_pattern_matches_dynamic_classes (index : nat) (variant : string) :
  index < length colors ->
  test safelist_pattern (variant ++ className index) = true.
Proof.
  intros Hlt.
  replace (className index) with (className index ++ "")
    by (induction (className index) as [| c s IH]; [reflexivity |];
        change (String c s ++ "") with (String c (s ++ "")); by rewrite IH).
  apply test_infix.
  destruct index as [| [| [| index]]]; cbn [length colors] in Hlt;
    [vm_compute; repeat constructor .. | lia].
Qed.

Lemma safelist_pattern_matches_dynamic_classes_witness :
  1 < length colors /\ test safelist_pattern ("hover:" ++ className 1) = true.
Proof.
  split; [vm_compute; lia |].
  apply (safelist_pattern_matches_dynamic_classes 1 "hover:"). vm_compute. lia.
Defined.

(** What is not a background of the three colors in the three shades is
    not matched. *)
Example safelist_pattern_rejects :
  test safelist_pattern "text-white" = false
  /\ test safelist_pattern "bg-red-200" = false
  /\ test safelist_pattern (className 3) = false.
Proof. repeat split. Qed.
